(** * RSY, [helpers/sprite_into_tiles.py]: slicing the chess sprite sheet

    The script cuts a 6 x 2 sheet of 213 x 213 pixel chess sprites into twelve
    tiles and saves each one as [tiles/{color}_{piece}.png].  This file
    embeds the naming function [name] and the module body (directory
    creation, opening of the sheet, the nested crop loop) and settles the
    properties stated about them. *)

From Stdlib Require Import ZArith List Lia Ascii.
From stdpp Require Import gmap strings list fin_maps.

Local Open Scope Z_scope.

(* ===================================================================== *)
(** ** The naming function                                               *)
(* ===================================================================== *)

(** [def name(idx)], lines 4-15.  Python integers are unbounded, hence [Z];
    Python's [%] with the positive divisor 6 is the floored remainder, which
    is [Z.modulo].  The [match] statement has no default case: when no case
    applies the local [name] keeps its initial value, the empty string. *)
Definition name (idx : Z) : string :=
  let color := if idx <? 6 then "white" else "black" in
  let piece := idx mod 6 in
  let name := "" in
  let name :=
    match piece with
    | 0 => "king"
    | 1 => "queen"
    | 2 => "bishop"
    | 3 => "knight"
    | 4 => "rook"
    | 5 => "pawn"
    | _ => name
    end in
  color +:+ "_" +:+ name.

(** The naming table as the specification words it: a colour chosen by the
    half of the index range, a piece chosen by the index modulo six out of a
    fixed order. *)
Module NameSpec.

Definition pieces : list string :=
  ["king"; "queen"; "bishop"; "knight"; "rook"; "pawn"].

Definition colors : list string := ["white"; "black"].

Definition color_of (i : Z) : string :=
  if (0 <=? i) && (i <=? 5) then "white" else "black".

Definition piece_of (i : Z) : string :=
  nth (Z.to_nat (i mod 6)) pieces "".

Definition name_spec (i : Z) : string :=
  color_of i +:+ "_" +:+ piece_of i.

End NameSpec.

(* ===================================================================== *)
(** ** The environment of the script: images and the file system          *)
(* ===================================================================== *)

(** An image as the imaging library (Pillow) presents it to the script: a
    size and a pixel at every coordinate inside it.  Pixel values are kept
    abstract as integers; [0] stands for the all-zero pixel.  Two facts about
    an image decide whether the calls of the script go through.  [decodes]:
    the pixel data can be loaded; it is false for the image of a file that is
    cut short after its header, which opens all the same because opening
    reads the header only.  [png_mode]: the PNG writer has an encoding for
    the mode of the image; it has for RGB, RGBA, greyscale and palette
    images, it has none for CMYK. *)
Record image : Type := Image {
  width : Z;
  height : Z;
  getpixel : Z -> Z -> Z;
  decodes : bool;
  png_mode : bool
}.

(** A crop box is Pillow's 4-tuple (left, upper, right, lower): the left and
    upper edges are inside the box, the right and lower edges are not. *)
Definition box : Type := (Z * Z * Z * Z)%type.

Definition box_contains (b : box) (px py : Z) : bool :=
  let '(x0, y0, x1, y1) := b in
  (x0 <=? px) && (px <? x1) && (y0 <=? py) && (py <? y1).

Definition box_width (b : box) : Z := let '(x0, _, x1, _) := b in x1 - x0.
Definition box_height (b : box) : Z := let '(_, y0, _, y1) := b in y1 - y0.

(** The exceptions the calls of the script can raise.  [OSError] stands for
    the plain [OSError] Pillow raises for pixel data that does not load and
    for a mode it cannot write. *)
Inductive exn : Type :=
  | FileExistsError
  | FileNotFoundError
  | NotADirectoryError
  | IsADirectoryError
  | UnidentifiedImageError
  | ValueError
  | OSError.

(** The file system below the working directory: a directory maps entry
    names to nodes; a file either has the header of an image (its pixel data
    may still fail to load, see [decodes]) or is no image at all. *)
#[warnings="-register-all"]
Inductive node : Type :=
  | ImageFile (im : image)
  | OtherFile
  | Dir (entries : gmap string node).

(** A relative path as the operating system reads it: its components between
    slashes, empty components (a trailing or doubled slash) dropped. *)
Fixpoint components_from (cur : string) (s : string) : list string :=
  match s with
  | EmptyString => if String.eqb cur "" then [] else [cur]
  | String c s' =>
      if Ascii.eqb c "/"%char
      then (if String.eqb cur "" then [] else [cur]) ++ components_from "" s'
      else components_from (cur +:+ String c "") s'
  end.

Definition components (path : string) : list string := components_from "" path.

Fixpoint fs_lookup (p : list string) (n : node) : option node :=
  match p with
  | [] => Some n
  | c :: p' =>
      match n with
      | Dir es => match es !! c with Some n' => fs_lookup p' n' | None => None end
      | _ => None
      end
  end.

(** [os.mkdir]: creates the last component as an empty directory; raises
    [FileExistsError] when that entry exists already (file or directory) and
    does not create missing parents. *)
Fixpoint fs_mkdir (p : list string) (es : gmap string node)
  : exn + gmap string node :=
  match p with
  | [] => inl FileNotFoundError
  | c :: p' =>
      match p' with
      | [] =>
          match es !! c with
          | Some _ => inl FileExistsError
          | None => inr (<[c := Dir ∅]> es)
          end
      | _ :: _ =>
          match es !! c with
          | Some (Dir es') =>
              match fs_mkdir p' es' with
              | inl e => inl e
              | inr es'' => inr (<[c := Dir es'']> es)
              end
          | Some _ => inl NotADirectoryError
          | None => inl FileNotFoundError
          end
      end
  end.

(** Opening a path for writing ([open(path, "w+b")], which is what saving an
    image to a file name does): the file is created, or replaced when it
    exists; the parent directories must exist. *)
Fixpoint fs_write (p : list string) (f : node) (es : gmap string node)
  : exn + gmap string node :=
  match p with
  | [] => inl IsADirectoryError
  | c :: p' =>
      match p' with
      | [] =>
          match es !! c with
          | Some (Dir _) => inl IsADirectoryError
          | _ => inr (<[c := f]> es)
          end
      | _ :: _ =>
          match es !! c with
          | Some (Dir es') =>
              match fs_write p' f es' with
              | inl e => inl e
              | inr es'' => inr (<[c := Dir es'']> es)
              end
          | Some _ => inl NotADirectoryError
          | None => inl FileNotFoundError
          end
      end
  end.

(** What [Image.open] finds at a path.  Opening is lazy: it identifies the
    file by its header and loads no pixel data, so it succeeds on every
    [ImageFile], also on one whose data does not decode. *)
Definition fs_open_image (p : list string) (es : gmap string node)
  : exn + image :=
  match fs_lookup p (Dir es) with
  | Some (ImageFile im) => inr im
  | Some OtherFile => inl UnidentifiedImageError
  | Some (Dir _) => inl IsADirectoryError
  | None => inl FileNotFoundError
  end.

(** Pillow's [Image.crop(box)].  It raises [ValueError] for a box whose
    right edge is left of its left edge or whose lower edge is above its
    upper edge; then it loads the pixel data, which raises [OSError] when the
    data does not decode.  The result has the size of the box and the mode
    of the image, and is held in memory; the part of the box that lies
    outside the image is filled with zero pixels.  The library makes no
    comparison of the box with the size of the image. *)
Definition padded_crop (im : image) (b : box) : image :=
  let '(x0, y0, x1, y1) := b in
  {| width := x1 - x0;
     height := y1 - y0;
     getpixel := fun u v =>
       if (0 <=? x0 + u) && (x0 + u <? width im) &&
          (0 <=? y0 + v) && (y0 + v <? height im)
       then getpixel im (x0 + u) (y0 + v)
       else 0;
     decodes := true;
     png_mode := png_mode im |}.

Definition pil_crop (im : image) (b : box) : exn + image :=
  let '(x0, y0, x1, y1) := b in
  if x1 <? x0 then inl ValueError
  else if y1 <? y0 then inl ValueError
  else if decodes im then inr (padded_crop im b)
  else inl OSError.

(* ===================================================================== *)
(** ** Effects: a state and exception monad with a call log                *)
(* ===================================================================== *)

(** The calls the script makes into [os] and Pillow, in program order. *)
Inductive event : Type :=
  | EvMkdir (path : string)
  | EvOpen (path : string)
  | EvCrop (b : box)
  | EvSave (path : string).

Record world : Type := World {
  fs : gmap string node;      (* entries of the working directory *)
  log : list event            (* calls made so far, oldest first *)
}.

Inductive result (A : Type) : Type :=
  | Ok (a : A)
  | Raise (e : exn).
Arguments Ok {A} a.
Arguments Raise {A} e.

Definition M (A : Type) : Type := world -> result A * world.

Definition ret {A} (a : A) : M A := fun w => (Ok a, w).

Definition bind {A B} (m : M A) (k : A -> M B) : M B :=
  fun w =>
    match m w with
    | (Ok a, w') => k a w'
    | (Raise e, w') => (Raise e, w')
    end.

Notation "x <- m ;; k" := (bind m (fun x => k))
  (at level 100, m at next level, right associativity).
Notation "m ;;; k" := (bind m (fun _ => k))
  (at level 100, right associativity).

(** A library call that is all or nothing: it is logged when it is made,
    then it either changes the file system and returns, or raises and leaves
    the file system alone. *)
Definition call {A} (ev : event)
    (f : gmap string node -> exn + (A * gmap string node)) : M A :=
  fun w =>
    let lg := log w ++ [ev] in
    match f (fs w) with
    | inl e => (Raise e, {| fs := fs w; log := lg |})
    | inr (a, es) => (Ok a, {| fs := es; log := lg |})
    end.

Definition mkdir (path : string) : M unit :=
  call (EvMkdir path) (fun es =>
    match fs_mkdir (components path) es with
    | inl e => inl e
    | inr es' => inr (tt, es')
    end).

Definition Image_open (path : string) : M image :=
  call (EvOpen path) (fun es =>
    match fs_open_image (components path) es with
    | inl e => inl e
    | inr im => inr (im, es)
    end).

Definition crop (im : image) (b : box) : M image :=
  call (EvCrop b) (fun es =>
    match pil_crop im b with
    | inl e => inl e
    | inr t => inr (t, es)
    end).

(** Pillow's [Image.save(path)] for a path that ends in [.png].  The file is
    opened for writing first ([open(path, "w+b")], which creates it or
    empties it); then the PNG writer runs, and raises [OSError] when it has
    no encoding for the mode of the image.  After that failure a file the
    call had created is removed again, and a file that existed before is left
    emptied. *)
Definition save (im : image) (path : string) : M unit :=
  fun w =>
    let lg := log w ++ [EvSave path] in
    let p := components path in
    match fs_write p OtherFile (fs w) with
    | inl e => (Raise e, {| fs := fs w; log := lg |})
    | inr emptied =>
        if png_mode im then
          match fs_write p (ImageFile im) emptied with
          | inl e => (Raise e, {| fs := emptied; log := lg |})
          | inr written => (Ok tt, {| fs := written; log := lg |})
          end
        else
          (Raise OSError,
           {| fs := match fs_lookup p (Dir (fs w)) with
                    | Some _ => emptied
                    | None => fs w
                    end;
              log := lg |})
    end.

(** [range(n)] and a [for] loop whose body updates a variable of the
    enclosing scope (here the counter [i]). *)
Definition range (n : Z) : list Z := seqZ 0 n.

Fixpoint for_each {S : Type} (xs : list Z) (body : Z -> S -> M S) (s : S)
  : M S :=
  match xs with
  | [] => ret s
  | x :: xs' => s' <- body x s ;; for_each xs' body s'
  end.

(* ===================================================================== *)
(** ** The module body                                                     *)
(* ===================================================================== *)

(** Lines 17-28. *)
Definition main : M unit :=
  mkdir "tiles/" ;;;
  sheet <- Image_open "sprites.png" ;;
  let i := 0 in
  let l := 213 in
  _ <- for_each (range 2) (fun y i =>
         for_each (range 6) (fun x i =>
           let x0 := x * l in
           let y0 := y * l in
           let x1 := x0 + l in
           let y1 := y0 + l in
           tile <- crop sheet (x0, y0, x1, y1) ;;
           save tile ("tiles/" +:+ name i +:+ ".png") ;;;
           ret (i + 1)) i) i ;;
  ret tt.

(** Running the script in a working directory with entries [es]. *)
Definition run (es : gmap string node) : result unit * world :=
  main {| fs := es; log := [] |}.

(** Removing the output directory and all it holds ([rm -r tiles]). *)
Definition remove_tiles (es : gmap string node) : gmap string node :=
  delete "tiles" es.

(** Observations on the call log. *)
Definition crop_boxes (lg : list event) : list box :=
  flat_map (fun ev => match ev with EvCrop b => [b] | _ => [] end) lg.

Definition saved_paths (lg : list event) : list string :=
  flat_map (fun ev => match ev with EvSave p => [p] | _ => [] end) lg.

Definition opened_paths (lg : list event) : list string :=
  flat_map (fun ev => match ev with EvOpen p => [p] | _ => [] end) lg.

(* ===================================================================== *)
(** ** What the specification expects of a run                             *)
(* ===================================================================== *)

Module Expected.

(** Cell edge, and the cell of a linear index: row [i div 6], column
    [i mod 6], top-left corner (column x edge, row x edge). *)
Definition edge : Z := 213.

Definition tile_box (i : Z) : box :=
  let row := i / 6 in
  let column := i mod 6 in
  (column * edge, row * edge, column * edge + edge, row * edge + edge).

Definition indices : list Z := seqZ 0 12.

Definition tile_file (i : Z) : string := name i +:+ ".png".
Definition tile_path (i : Z) : string := "tiles/" +:+ tile_file i.

(** The twelve file names, colour by colour and piece by piece. *)
Definition file_names : list string :=
  c ← NameSpec.colors; p ← NameSpec.pieces; [c +:+ "_" +:+ p +:+ ".png"].

(** The calls of a complete run, in order. *)
Definition calls : list event :=
  [EvMkdir "tiles/"; EvOpen "sprites.png"] ++
  flat_map (fun i => [EvCrop (tile_box i); EvSave (tile_path i)]) indices.

(** The content of [tiles/] after a complete run on [sheet]. *)
Definition tiles (sheet : image) : gmap string node :=
  foldl (fun d i => <[tile_file i := ImageFile (padded_crop sheet (tile_box i))]> d)
        ∅ indices.

(** The sheet region the specification speaks of: 1278 x 426 pixels with
    its top-left corner at the origin. *)
Definition sheet_region : box := (0, 0, 1278, 426).

End Expected.

(** Concrete working directories used to exercise the statements below. *)
Module Demo.

(** A sheet of the expected size and a sheet of a single pixel, both
    sound RGB images. *)
Definition sheet : image :=
  {| width := 1278; height := 426; getpixel := fun x y => 1 + x + 1278 * y;
     decodes := true; png_mode := true |}.

Definition small : image :=
  {| width := 1; height := 1; getpixel := fun _ _ => 255;
     decodes := true; png_mode := true |}.

(** A sheet of the expected size whose file is cut short, and one in a mode
    the PNG writer cannot hold. *)
Definition cut_short : image :=
  {| width := 1278; height := 426; getpixel := fun _ _ => 0;
     decodes := false; png_mode := true |}.

Definition cmyk : image :=
  {| width := 1278; height := 426; getpixel := fun x y => x + y;
     decodes := true; png_mode := false |}.

Definition fresh : gmap string node := {[ "sprites.png" := ImageFile sheet ]}.

Definition fresh_small : gmap string node :=
  {[ "sprites.png" := ImageFile small ]}.

Definition no_sheet : gmap string node := {[ "notes.txt" := OtherFile ]}.

Definition fresh_cut_short : gmap string node :=
  {[ "sprites.png" := ImageFile cut_short ]}.

Definition fresh_cmyk : gmap string node :=
  {[ "sprites.png" := ImageFile cmyk ]}.

Definition occupied : gmap string node :=
  <["tiles" := Dir ∅]> fresh.

End Demo.

(** A directory that holds no subdirectory. *)
Definition only_files (d : gmap string node) : Prop :=
  forall k es, d !! k <> Some (Dir es).

(* ===================================================================== *)
(** ** The naming function: lemmas                                         *)
(* ===================================================================== *)

Example name_3 : name 3 = "white_knight".
Proof. reflexivity. Qed.

Example name_10 : name 10 = "black_rook".
Proof. reflexivity. Qed.

(** Every remainder modulo six is one of the six literals of the [match]. *)
Lemma mod6_cases (i : Z) :
  i mod 6 = 0 \/ i mod 6 = 1 \/ i mod 6 = 2 \/
  i mod 6 = 3 \/ i mod 6 = 4 \/ i mod 6 = 5.
Proof.
  pose proof (Z.mod_pos_bound i 6 ltac:(lia)) as Hb. lia.
Qed.

(** Case analysis on the remainder, leaving [name] evaluated in each case. *)
Ltac name_cases i :=
  let H := fresh "Hmod" in
  unfold name, NameSpec.name_spec, NameSpec.piece_of;
  destruct (mod6_cases i) as [H|[H|[H|[H|[H|H]]]]]; rewrite ?H; cbn.

Lemma name_unfold (i : Z) :
  name i = (if i <? 6 then "white" else "black") +:+ "_" +:+ NameSpec.piece_of i.
Proof. name_cases i; reflexivity. Qed.

Lemma piece_of_in (i : Z) : In (NameSpec.piece_of i) NameSpec.pieces.
Proof.
  unfold NameSpec.piece_of.
  destruct (mod6_cases i) as [H|[H|[H|[H|[H|H]]]]]; rewrite H; cbn; tauto.
Qed.

Lemma pieces_nonempty (p : string) : In p NameSpec.pieces -> p <> "".
Proof. cbn. intros [<-|[<-|[<-|[<-|[<-|[<-|[]]]]]]]; discriminate. Qed.

(** An index of the sheet is one of the twelve literals. *)
Lemma index_cases (i : Z) :
  0 <= i <= 11 ->
  In i [0; 1; 2; 3; 4; 5; 6; 7; 8; 9; 10; 11].
Proof. intros H. cbn. lia. Qed.

Ltac index_cases H :=
  apply index_cases in H; cbn [In] in H;
  repeat (destruct H as [H|H]; [subst|]); [..|contradiction].

(** C1.  On the indices 0..11 the naming function is the table of the
    specification: the colour is white for 0..5 and black for 6..11, the
    piece is given by the index modulo six in the order king, queen, bishop,
    knight, rook, pawn, and the name is colour, underscore, piece.  The four
    corner values are as listed. *)
Theorem name_table (i : Z) :
  0 <= i <= 11 ->
  name i = NameSpec.color_of i +:+ "_" +:+ NameSpec.piece_of i /\
  (i <= 5 -> NameSpec.color_of i = "white") /\
  (6 <= i -> NameSpec.color_of i = "black") /\
  name 0 = "white_king" /\ name 5 = "white_pawn" /\
  name 6 = "black_king" /\ name 11 = "black_pawn".
Proof.
  intros H. index_cases H; repeat split; intros; try reflexivity; lia.
Qed.

Lemma name_table_witness :
  name 9 = "black_knight" /\ NameSpec.piece_of 9 = "knight".
Proof.
  destruct (name_table 9 ltac:(lia)) as (Hn & _ & Hc & _).
  split; [rewrite Hn, Hc by lia|]; reflexivity.
Defined.

(** C5, as stated, fails at index 6: [name 6] is not white, and [name 6] and
    [name (6 + 6)] are the same string, so no colour is swapped. *)
Lemma name_shift_no_swap_at_6 :
  ~ (exists p, name 6 = "white_" +:+ p /\ name (6 + 6) = "black_" +:+ p) /\
  name 6 = name (6 + 6).
Proof.
  split; [|reflexivity].
  intros (p & Hw & _). cbn in Hw. discriminate.
Qed.

(** C5, amended.  For every index i in 0..11, [name i] and [name (i + 6)]
    carry the same piece and [name (i + 6)] is black.  For i in 0..5
    [name i] is white, so the two names differ in the colour only; for i in
    6..11 [name i] is black already and the two names are equal. *)
Theorem name_shift (i : Z) :
  0 <= i <= 11 ->
  exists p,
    In p NameSpec.pieces /\
    p = NameSpec.piece_of i /\ p = NameSpec.piece_of (i + 6) /\
    name (i + 6) = "black_" +:+ p /\
    (i <= 5 -> name i = "white_" +:+ p) /\
    (6 <= i -> name i = "black_" +:+ p /\ name (i + 6) = name i).
Proof.
  intros H. exists (NameSpec.piece_of i).
  split; [apply piece_of_in|].
  index_cases H; repeat split; intros; try reflexivity; lia.
Qed.

Lemma name_shift_witness :
  exists p, name 2 = "white_" +:+ p /\ name 8 = "black_" +:+ p.
Proof.
  destruct (name_shift 2 ltac:(lia)) as (p & _ & _ & _ & Hb & Hw & _).
  exists p. split; [apply Hw; lia | exact Hb].
Defined.

(** C9.  [name] is defined on every integer.  Its result is always colour,
    underscore, piece with a piece out of the six (never the empty initial
    value, because the remainder modulo six lies in 0..5 also for negative
    indices); the colour is white for every index below 6 and black for every
    index from 6 on.  In particular name(-1) = "white_pawn" and
    name(12) = "black_king". *)
Theorem name_total (idx : Z) :
  (exists color p,
     name idx = color +:+ "_" +:+ p /\
     In p NameSpec.pieces /\ p <> "" /\
     p = NameSpec.piece_of idx /\
     0 <= idx mod 6 <= 5 /\
     color = (if decide (idx < 6) then "white" else "black")) /\
  name (-1) = "white_pawn" /\ name 12 = "black_king".
Proof.
  split; [|split; reflexivity].
  exists (if idx <? 6 then "white" else "black"), (NameSpec.piece_of idx).
  split; [apply name_unfold|].
  split; [apply piece_of_in|].
  split; [apply pieces_nonempty, piece_of_in|].
  split; [reflexivity|].
  split; [pose proof (Z.mod_pos_bound idx 6); lia|].
  destruct (decide (idx < 6)), (Z.ltb_spec idx 6); (reflexivity || lia).
Qed.

(** The naming function separates the twelve indices. *)
Lemma name_inj (i j : Z) :
  0 <= i <= 11 -> 0 <= j <= 11 -> name i = name j -> i = j.
Proof.
  intros Hi Hj. index_cases Hi; index_cases Hj;
    intros E; (reflexivity || (cbn in E; discriminate E)).
Qed.

(* ===================================================================== *)
(** ** The library calls at the paths the script uses                      *)
(* ===================================================================== *)

Lemma only_files_empty : only_files ∅.
Proof. intros k es. rewrite lookup_empty. discriminate. Qed.

Lemma only_files_insert (d : gmap string node) (k : string) (im : image) :
  only_files d -> only_files (<[k := ImageFile im]> d).
Proof.
  intros Hd k' es. destruct (decide (k = k')) as [->|Hne].
  - rewrite lookup_insert_eq. discriminate.
  - rewrite lookup_insert_ne by exact Hne. apply Hd.
Qed.

Create HintDb tiles.
#[local] Hint Resolve only_files_empty only_files_insert : tiles.

Lemma components_tile_path (i : Z) :
  components (Expected.tile_path i) = ["tiles"; Expected.tile_file i].
Proof.
  unfold Expected.tile_path, Expected.tile_file.
  name_cases i; destruct (i <? 6); reflexivity.
Qed.

Lemma mkdir_tiles (w : world) :
  mkdir "tiles/" w =
  match fs w !! "tiles" with
  | Some _ => (Raise FileExistsError,
               {| fs := fs w; log := log w ++ [EvMkdir "tiles/"] |})
  | None => (Ok tt,
             {| fs := <["tiles" := Dir ∅]> (fs w);
                log := log w ++ [EvMkdir "tiles/"] |})
  end.
Proof.
  unfold mkdir, call. change (components "tiles/") with ["tiles"].
  cbn [fs_mkdir]. destruct (fs w !! "tiles"); reflexivity.
Qed.

Lemma open_sprites (w : world) :
  Image_open "sprites.png" w =
  match fs_open_image ["sprites.png"] (fs w) with
  | inl e => (Raise e,
              {| fs := fs w; log := log w ++ [EvOpen "sprites.png"] |})
  | inr im => (Ok im,
               {| fs := fs w; log := log w ++ [EvOpen "sprites.png"] |})
  end.
Proof.
  unfold Image_open, call. change (components "sprites.png") with ["sprites.png"].
  destruct (fs_open_image _ _); reflexivity.
Qed.

(** Creating [tiles] does not change what is found at [sprites.png]. *)
Lemma open_sprites_after_mkdir (es : gmap string node) (n : node) :
  fs_open_image ["sprites.png"] (<["tiles" := n]> es) =
  fs_open_image ["sprites.png"] es.
Proof.
  unfold fs_open_image. cbn [fs_lookup].
  rewrite lookup_insert_ne by discriminate. reflexivity.
Qed.

(** The boxes of the loop have their edges in order: the crop raises only
    when the pixel data of the sheet does not load. *)
Lemma crop_tile (sheet : image) (x y : Z) (w : world) :
  decodes sheet = true ->
  crop sheet (x * 213, y * 213, x * 213 + 213, y * 213 + 213) w =
  (Ok (padded_crop sheet (x * 213, y * 213, x * 213 + 213, y * 213 + 213)),
   {| fs := fs w;
      log := log w ++ [EvCrop (x * 213, y * 213, x * 213 + 213, y * 213 + 213)] |}).
Proof.
  intros Hdec. unfold crop, call, pil_crop.
  destruct (Z.ltb_spec (x * 213 + 213) (x * 213)); [lia|].
  destruct (Z.ltb_spec (y * 213 + 213) (y * 213)); [lia|].
  rewrite Hdec. reflexivity.
Qed.

Lemma crop_tile_undecodable (sheet : image) (x y : Z) (w : world) :
  decodes sheet = false ->
  crop sheet (x * 213, y * 213, x * 213 + 213, y * 213 + 213) w =
  (Raise OSError,
   {| fs := fs w;
      log := log w ++ [EvCrop (x * 213, y * 213, x * 213 + 213, y * 213 + 213)] |}).
Proof.
  intros Hdec. unfold crop, call, pil_crop.
  destruct (Z.ltb_spec (x * 213 + 213) (x * 213)); [lia|].
  destruct (Z.ltb_spec (y * 213 + 213) (y * 213)); [lia|].
  rewrite Hdec. reflexivity.
Qed.

Lemma save_tile (im : image) (i : Z) (es d : gmap string node) (lg : list event) :
  png_mode im = true ->
  only_files d ->
  save im (Expected.tile_path i) {| fs := <["tiles" := Dir d]> es; log := lg |} =
  (Ok tt,
   {| fs := <["tiles" := Dir (<[Expected.tile_file i := ImageFile im]> d)]> es;
      log := lg ++ [EvSave (Expected.tile_path i)] |}).
Proof.
  intros Hpng Hd. unfold save. cbn [fs log]. rewrite Hpng.
  rewrite components_tile_path. cbn [fs_write].
  rewrite lookup_insert_eq.
  destruct (d !! Expected.tile_file i) as [[| |sub]|] eqn:E;
    try (exfalso; exact (Hd _ _ E));
    rewrite lookup_insert_eq, lookup_insert_eq, !insert_insert_eq;
    reflexivity.
Qed.

(** A tile in a mode the PNG writer cannot hold: the save raises and the
    file it had created is gone again. *)
Lemma save_tile_unwritable (im : image) (i : Z) (es d : gmap string node)
    (lg : list event) :
  png_mode im = false ->
  d !! Expected.tile_file i = None ->
  save im (Expected.tile_path i) {| fs := <["tiles" := Dir d]> es; log := lg |} =
  (Raise OSError,
   {| fs := <["tiles" := Dir d]> es;
      log := lg ++ [EvSave (Expected.tile_path i)] |}).
Proof.
  intros Hpng Hfree. unfold save. cbn [fs log]. rewrite Hpng.
  rewrite components_tile_path. cbn [fs_write fs_lookup].
  rewrite lookup_insert_eq, Hfree. reflexivity.
Qed.

(** One iteration of the inner loop on a sheet that loads and can be
    written, started in a world whose [tiles] directory holds files only. *)
Lemma iteration (sheet : image) (x y i : Z)
    (es d : gmap string node) (lg : list event) :
  decodes sheet = true ->
  png_mode sheet = true ->
  only_files d ->
  (tile <- crop sheet (x * 213, y * 213, x * 213 + 213, y * 213 + 213) ;;
   save tile ("tiles/" +:+ name i +:+ ".png") ;;;
   ret (i + 1)) {| fs := <["tiles" := Dir d]> es; log := lg |} =
  (Ok (i + 1),
   {| fs := <["tiles" :=
               Dir (<[Expected.tile_file i :=
                       ImageFile (padded_crop sheet
                         (x * 213, y * 213, x * 213 + 213, y * 213 + 213))]> d)]> es;
      log := lg ++ [EvCrop (x * 213, y * 213, x * 213 + 213, y * 213 + 213);
                    EvSave (Expected.tile_path i)] |}).
Proof.
  intros Hdec Hpng Hd. unfold bind at 1. rewrite crop_tile by exact Hdec.
  cbn [fs log]. unfold bind.
  change ("tiles/" +:+ name i +:+ ".png") with (Expected.tile_path i).
  rewrite save_tile by assumption.
  unfold ret. rewrite <- app_assoc. reflexivity.
Qed.

(** The same iteration on a sheet whose pixel data does not load: it stops
    at the crop. *)
Lemma iteration_undecodable (sheet : image) (x y i : Z) (w : world) :
  decodes sheet = false ->
  (tile <- crop sheet (x * 213, y * 213, x * 213 + 213, y * 213 + 213) ;;
   save tile ("tiles/" +:+ name i +:+ ".png") ;;;
   ret (i + 1)) w =
  (Raise OSError,
   {| fs := fs w;
      log := log w ++ [EvCrop (x * 213, y * 213, x * 213 + 213, y * 213 + 213)] |}).
Proof.
  intros Hdec. unfold bind at 1. rewrite crop_tile_undecodable by exact Hdec.
  reflexivity.
Qed.

(** The same iteration on a sheet that loads but is in a mode the PNG writer
    cannot hold: it stops at the save. *)
Lemma iteration_unwritable (sheet : image) (x y i : Z)
    (es d : gmap string node) (lg : list event) :
  decodes sheet = true ->
  png_mode sheet = false ->
  d !! Expected.tile_file i = None ->
  (tile <- crop sheet (x * 213, y * 213, x * 213 + 213, y * 213 + 213) ;;
   save tile ("tiles/" +:+ name i +:+ ".png") ;;;
   ret (i + 1)) {| fs := <["tiles" := Dir d]> es; log := lg |} =
  (Raise OSError,
   {| fs := <["tiles" := Dir d]> es;
      log := lg ++ [EvCrop (x * 213, y * 213, x * 213 + 213, y * 213 + 213);
                    EvSave (Expected.tile_path i)] |}).
Proof.
  intros Hdec Hpng Hfree. unfold bind at 1. rewrite crop_tile by exact Hdec.
  cbn [fs log]. unfold bind.
  change ("tiles/" +:+ name i +:+ ".png") with (Expected.tile_path i).
  rewrite save_tile_unwritable by assumption.
  rewrite <- app_assoc. reflexivity.
Qed.

(* ===================================================================== *)
(** ** The outcomes of a run                                               *)
(* ===================================================================== *)

(** The outcome of a run is decided by the working directory at its start:
    whether an entry [tiles] exists, what is found at [sprites.png], and,
    for an image, whether its pixel data loads and whether its mode can be
    written as PNG.  The last two are the same for every tile, so the loop
    either fails in its first iteration or runs to its end. *)
Lemma run_equation (es : gmap string node) :
  run es =
  match es !! "tiles" with
  | Some _ =>
      (Raise FileExistsError, {| fs := es; log := [EvMkdir "tiles/"] |})
  | None =>
      match fs_open_image ["sprites.png"] es with
      | inl e =>
          (Raise e,
           {| fs := <["tiles" := Dir ∅]> es;
              log := [EvMkdir "tiles/"; EvOpen "sprites.png"] |})
      | inr sheet =>
          if decodes sheet then
            if png_mode sheet then
              (Ok tt,
               {| fs := <["tiles" := Dir (Expected.tiles sheet)]> es;
                  log := Expected.calls |})
            else
              (Raise OSError,
               {| fs := <["tiles" := Dir ∅]> es;
                  log := [EvMkdir "tiles/"; EvOpen "sprites.png";
                          EvCrop (0, 0, 213, 213);
                          EvSave "tiles/white_king.png"] |})
          else
            (Raise OSError,
             {| fs := <["tiles" := Dir ∅]> es;
                log := [EvMkdir "tiles/"; EvOpen "sprites.png";
                        EvCrop (0, 0, 213, 213)] |})
      end
  end.
Proof.
  unfold run, main. unfold bind at 1. rewrite mkdir_tiles. cbn [fs log].
  destruct (es !! "tiles") as [n|]; [reflexivity|].
  unfold bind at 1. rewrite open_sprites. cbn [fs log].
  rewrite open_sprites_after_mkdir.
  destruct (fs_open_image ["sprites.png"] es) as [e|sheet]; [reflexivity|].
  change (range 2) with [0; 1]. change (range 6) with [0; 1; 2; 3; 4; 5].
  cbn [for_each]. cbv zeta.
  unfold bind at 1. unfold bind at 1.
  destruct (decodes sheet) eqn:Hdec; [destruct (png_mode sheet) eqn:Hpng|].
  - do 6 (unfold bind at 1; rewrite iteration by auto 20 with tiles).
    unfold ret at 1. unfold bind at 1.
    do 6 (unfold bind at 1; rewrite iteration by auto 20 with tiles).
    reflexivity.
  - unfold bind at 1.
    rewrite iteration_unwritable by (auto; apply lookup_empty).
    reflexivity.
  - unfold bind at 1. rewrite iteration_undecodable by exact Hdec.
    reflexivity.
Qed.

Lemma open_image_lookup (es : gmap string node) (sheet : image) :
  fs_open_image ["sprites.png"] es = inr sheet <->
  es !! "sprites.png" = Some (ImageFile sheet).
Proof.
  unfold fs_open_image. cbn [fs_lookup].
  destruct (es !! "sprites.png") as [[im| |sub]|]; split; intros H;
    try discriminate; congruence.
Qed.

Lemma open_image_missing (es : gmap string node) :
  es !! "sprites.png" = None ->
  fs_open_image ["sprites.png"] es = inl FileNotFoundError.
Proof. intros H. unfold fs_open_image. cbn [fs_lookup]. rewrite H. reflexivity. Qed.

(** A run is complete exactly when [tiles] is absent and [sprites.png] is
    an image that loads and can be written as PNG; its final world is then
    known. *)
Lemma run_ok_inv (es : gmap string node) (w : world) :
  run es = (Ok tt, w) ->
  es !! "tiles" = None /\
  exists sheet,
    es !! "sprites.png" = Some (ImageFile sheet) /\
    decodes sheet = true /\ png_mode sheet = true /\
    w = {| fs := <["tiles" := Dir (Expected.tiles sheet)]> es;
           log := Expected.calls |}.
Proof.
  rewrite run_equation.
  destruct (es !! "tiles"); [discriminate|].
  destruct (fs_open_image ["sprites.png"] es) as [e|sheet] eqn:E; [discriminate|].
  destruct (decodes sheet) eqn:Hdec; [|discriminate].
  destruct (png_mode sheet) eqn:Hpng; [|discriminate].
  intros [= <-]. split; [reflexivity|].
  exists sheet. split; [apply open_image_lookup, E|].
  split; [exact Hdec|]. split; [exact Hpng | reflexivity].
Qed.

Lemma run_ok (es : gmap string node) (sheet : image) :
  es !! "tiles" = None ->
  es !! "sprites.png" = Some (ImageFile sheet) ->
  decodes sheet = true ->
  png_mode sheet = true ->
  run es = (Ok tt, {| fs := <["tiles" := Dir (Expected.tiles sheet)]> es;
                      log := Expected.calls |}).
Proof.
  intros Ht Hs Hdec Hpng. rewrite run_equation, Ht.
  apply open_image_lookup in Hs. rewrite Hs, Hdec, Hpng. reflexivity.
Qed.

Lemma run_tiles_exist (es : gmap string node) :
  is_Some (es !! "tiles") ->
  run es = (Raise FileExistsError, {| fs := es; log := [EvMkdir "tiles/"] |}).
Proof. intros [n Hn]. rewrite run_equation, Hn. reflexivity. Qed.

(** Whatever the outcome of a run, [tiles] exists afterwards and
    [sprites.png] is as it was. *)
Lemma run_leaves_tiles (es : gmap string node) :
  is_Some (fs (snd (run es)) !! "tiles").
Proof.
  rewrite run_equation.
  destruct (es !! "tiles") as [n|] eqn:Ht; cbn [snd fs].
  - rewrite Ht. eauto.
  - destruct (fs_open_image _ es) as [e|sheet];
      [|destruct (decodes sheet), (png_mode sheet)]; cbn [snd fs];
      rewrite lookup_insert_eq; eauto.
Qed.

Lemma run_keeps_others (es : gmap string node) (k : string) :
  k <> "tiles" -> fs (snd (run es)) !! k = es !! k.
Proof.
  intros Hk. rewrite run_equation.
  destruct (es !! "tiles") as [n|]; cbn [snd fs]; [reflexivity|].
  destruct (fs_open_image _ es) as [e|sheet];
    [|destruct (decodes sheet), (png_mode sheet)]; cbn [snd fs];
    rewrite lookup_insert_ne by congruence; reflexivity.
Qed.

(** The calls of a complete run, read off the log. *)
Lemma calls_saved :
  saved_paths Expected.calls = map Expected.tile_path Expected.indices.
Proof. reflexivity. Qed.

Lemma calls_cropped :
  crop_boxes Expected.calls = map Expected.tile_box Expected.indices.
Proof. reflexivity. Qed.

Lemma tile_paths_by_colour_and_piece :
  map Expected.tile_path Expected.indices =
  map (fun f => "tiles/" +:+ f) Expected.file_names.
Proof. reflexivity. Qed.

Lemma file_names_NoDup : NoDup Expected.file_names.
Proof. apply (bool_decide_unpack _). vm_compute. exact I. Qed.

Lemma tile_paths_NoDup : NoDup (map Expected.tile_path Expected.indices).
Proof. apply (bool_decide_unpack _). vm_compute. exact I. Qed.

Lemma tiles_dom (sheet : image) :
  dom (Expected.tiles sheet) = list_to_set Expected.file_names.
Proof. reflexivity. Qed.

Lemma tiles_size (sheet : image) : size (Expected.tiles sheet) = 12%nat.
Proof. reflexivity. Qed.

Lemma tiles_only_files (sheet : image) : only_files (Expected.tiles sheet).
Proof.
  unfold Expected.tiles.
  change Expected.indices with [0; 1; 2; 3; 4; 5; 6; 7; 8; 9; 10; 11].
  cbn [foldl]. auto 20 with tiles.
Qed.

Lemma tiles_lookup (sheet : image) (i : Z) :
  0 <= i <= 11 ->
  Expected.tiles sheet !! Expected.tile_file i =
  Some (ImageFile (padded_crop sheet (Expected.tile_box i))).
Proof. intros H. index_cases H; reflexivity. Qed.

(* ===================================================================== *)
(** ** The files of a complete run                                         *)
(* ===================================================================== *)

(** C2.  A complete run starts without [tiles], creates it, and saves
    exactly twelve files, each once, under the names
    [tiles/{color}_{piece}.png] for the two colours and the six pieces; the
    directory then holds exactly these twelve files and the rest of the
    working directory is as before. *)
Theorem complete_run_files (es : gmap string node) (w : world) :
  run es = (Ok tt, w) ->
  es !! "tiles" = None /\
  saved_paths (log w) = map (fun f => "tiles/" +:+ f) Expected.file_names /\
  length (saved_paths (log w)) = 12%nat /\
  NoDup (saved_paths (log w)) /\
  (forall c p, In c NameSpec.colors -> In p NameSpec.pieces ->
     In ("tiles/" +:+ c +:+ "_" +:+ p +:+ ".png") (saved_paths (log w))) /\
  exists d,
    fs w !! "tiles" = Some (Dir d) /\
    dom d = list_to_set Expected.file_names /\
    size d = 12%nat /\
    only_files d /\
    forall k, k <> "tiles" -> fs w !! k = es !! k.
Proof.
  intros Hrun. destruct (run_ok_inv _ _ Hrun) as (Ht & sheet & Hs & Hdec & Hpng & ->).
  cbn [fs log]. rewrite calls_saved.
  split; [exact Ht|].
  split; [apply tile_paths_by_colour_and_piece|].
  split; [reflexivity|].
  split; [apply tile_paths_NoDup|].
  split.
  - intros c p Hc Hp. cbn in Hc, Hp.
    destruct Hc as [<-|[<-|[]]];
      destruct Hp as [<-|[<-|[<-|[<-|[<-|[<-|[]]]]]]];
      apply list_elem_of_In, (bool_decide_unpack _); vm_compute; exact I.
  - exists (Expected.tiles sheet).
    split; [apply lookup_insert_eq|].
    split; [apply tiles_dom|].
    split; [apply tiles_size|].
    split; [apply tiles_only_files|].
    intros k Hk. rewrite lookup_insert_ne by congruence. reflexivity.
Qed.

Lemma complete_run_files_witness :
  exists w, run Demo.fresh = (Ok tt, w) /\ length (saved_paths (log w)) = 12%nat.
Proof.
  exists (snd (run Demo.fresh)).
  assert (H : run Demo.fresh = (Ok tt, snd (run Demo.fresh))) by reflexivity.
  split; [exact H|].
  destruct (complete_run_files Demo.fresh _ H) as (_ & _ & Hlen & _).
  exact Hlen.
Defined.

(* ===================================================================== *)
(** ** The crop rectangles                                                 *)
(* ===================================================================== *)

Lemma box_contains_spec (x0 y0 x1 y1 px py : Z) :
  box_contains (x0, y0, x1, y1) px py = true <->
  x0 <= px < x1 /\ y0 <= py < y1.
Proof.
  unfold box_contains.
  rewrite !andb_true_iff, !Z.leb_le, !Z.ltb_lt. lia.
Qed.

Lemma indices_literal :
  Expected.indices = [0; 1; 2; 3; 4; 5; 6; 7; 8; 9; 10; 11].
Proof. reflexivity. Qed.

(** The boxes of the twelve indices, written out. *)
Lemma tile_boxes_literal :
  map Expected.tile_box Expected.indices =
  [(0, 0, 213, 213); (213, 0, 426, 213); (426, 0, 639, 213);
   (639, 0, 852, 213); (852, 0, 1065, 213); (1065, 0, 1278, 213);
   (0, 213, 213, 426); (213, 213, 426, 426); (426, 213, 639, 426);
   (639, 213, 852, 426); (852, 213, 1065, 426); (1065, 213, 1278, 426)].
Proof. reflexivity. Qed.

(** Case analysis on the position of a box in a list written out. *)
Ltac pick_box m Hm :=
  cbn in Hm;
  first [ discriminate Hm
        | destruct m as [|m]; [injection Hm as <- | pick_box m Hm] ].

(** C3.  In a complete run the crop made for the linear index i (the i-th
    crop, saved under name(i)) is the square of side 213 whose top-left
    corner is (column x 213, row x 213) with row = i div 6 and
    column = i mod 6; the twelve crops are made in row-major order, row 0
    with columns 0..5 first, then row 1 with columns 0..5. *)
Theorem crop_rectangles (es : gmap string node) (w : world) (i : Z) :
  run es = (Ok tt, w) ->
  0 <= i <= 11 ->
  let row := i / 6 in
  let column := i mod 6 in
  crop_boxes (log w) !! Z.to_nat i =
    Some (column * 213, row * 213, column * 213 + 213, row * 213 + 213) /\
  saved_paths (log w) !! Z.to_nat i = Some ("tiles/" +:+ name i +:+ ".png") /\
  crop_boxes (log w) =
    (r ← [0; 1]; c ← [0; 1; 2; 3; 4; 5];
     [(c * 213, r * 213, c * 213 + 213, r * 213 + 213)]) /\
  log w =
    [EvMkdir "tiles/"; EvOpen "sprites.png"] ++
    flat_map (fun k => [EvCrop (Expected.tile_box k);
                        EvSave (Expected.tile_path k)]) (seqZ 0 12).
Proof.
  intros Hrun Hi. destruct (run_ok_inv _ _ Hrun) as (_ & sheet & _ & _ & _ & ->).
  cbn [log]. rewrite calls_cropped, calls_saved.
  repeat split; try reflexivity; index_cases Hi; reflexivity.
Qed.

Lemma crop_rectangles_witness :
  crop_boxes (log (snd (run Demo.fresh))) !! 8%nat =
  Some (426, 213, 639, 426).
Proof.
  assert (H : run Demo.fresh = (Ok tt, snd (run Demo.fresh))) by reflexivity.
  destruct (crop_rectangles Demo.fresh _ 8 H ltac:(lia)) as (Hb & _).
  exact Hb.
Defined.

(** C4.  The twelve crop rectangles of a complete run are squares of
    213 x 213 pixels, no pixel lies in two of them, and the pixels they
    cover are exactly those of the 1278 x 426 region whose top-left corner is
    the origin. *)
Theorem crop_rectangles_tile_region (es : gmap string node) (w : world) :
  run es = (Ok tt, w) ->
  length (crop_boxes (log w)) = 12%nat /\
  (forall b, In b (crop_boxes (log w)) ->
     box_width b = 213 /\ box_height b = 213) /\
  (forall px py,
     box_contains Expected.sheet_region px py = true <->
     exists b, In b (crop_boxes (log w)) /\ box_contains b px py = true) /\
  (forall (m n : nat) b1 b2 px py,
     crop_boxes (log w) !! m = Some b1 ->
     crop_boxes (log w) !! n = Some b2 ->
     m <> n ->
     ~ (box_contains b1 px py = true /\ box_contains b2 px py = true)).
Proof.
  intros Hrun. destruct (run_ok_inv _ _ Hrun) as (_ & sheet & _ & _ & _ & ->).
  cbn [log]. rewrite calls_cropped, tile_boxes_literal.
  split; [reflexivity|]. split; [|split].
  - intros b Hb. cbn [In] in Hb.
    repeat (destruct Hb as [<-|Hb]; [split; reflexivity|]). contradiction.
  - intros px py. unfold Expected.sheet_region. rewrite box_contains_spec.
    split.
    + intros [Hx Hy].
      assert (Hc : 0 <= px < 213 \/ 213 <= px < 426 \/ 426 <= px < 639 \/
                   639 <= px < 852 \/ 852 <= px < 1065 \/ 1065 <= px < 1278)
        by lia.
      assert (Hr : 0 <= py < 213 \/ 213 <= py < 426) by lia.
      destruct Hr as [Hr|Hr];
        destruct Hc as [Hc|[Hc|[Hc|[Hc|[Hc|Hc]]]]];
        match goal with
        | Hc : ?x0 <= px < ?x1, Hr : ?y0 <= py < ?y1 |- _ =>
            exists (x0, y0, x1, y1)
        end;
        (split; [cbn [In]; tauto | apply box_contains_spec; lia]).
    + intros (b & Hb & Hin). cbn [In] in Hb.
      repeat (destruct Hb as [<-|Hb];
              [apply box_contains_spec in Hin; lia|]).
      contradiction.
  - intros m n b1 b2 px py Hm Hn Hne [H1 H2].
    pick_box m Hm; pick_box n Hn; try congruence;
      apply box_contains_spec in H1; apply box_contains_spec in H2; lia.
Qed.

Lemma crop_rectangles_tile_region_witness :
  exists b, In b (crop_boxes (log (snd (run Demo.fresh)))) /\
            box_contains b 1000 300 = true.
Proof.
  assert (H : run Demo.fresh = (Ok tt, snd (run Demo.fresh))) by reflexivity.
  destruct (crop_rectangles_tile_region Demo.fresh _ H) as (_ & _ & Hu & _).
  apply Hu. reflexivity.
Defined.

(* ===================================================================== *)
(** ** Distinct file names                                                 *)
(* ===================================================================== *)

Lemma tile_path_inj (i j : Z) :
  0 <= i <= 11 -> 0 <= j <= 11 ->
  Expected.tile_path i = Expected.tile_path j -> i = j.
Proof.
  intros Hi Hj. index_cases Hi; index_cases Hj;
    intros E; (reflexivity || (cbn in E; discriminate E)).
Qed.

(** C8.  [name] is injective on 0..11, so the twelve indices yield twelve
    distinct strings; the twelve saves of a complete run therefore go to
    twelve distinct paths, and the directory ends up with as many files as
    there were saves: no save replaced a file written earlier in the run. *)
Theorem name_injective (i j : Z) :
  0 <= i <= 11 -> 0 <= j <= 11 ->
  (name i = name j -> i = j) /\
  NoDup (map name (seqZ 0 12)) /\
  length (map name (seqZ 0 12)) = 12%nat /\
  forall es w,
    run es = (Ok tt, w) ->
    saved_paths (log w) !! Z.to_nat i = Some ("tiles/" +:+ name i +:+ ".png") /\
    saved_paths (log w) !! Z.to_nat j = Some ("tiles/" +:+ name j +:+ ".png") /\
    (i <> j -> "tiles/" +:+ name i +:+ ".png" <> "tiles/" +:+ name j +:+ ".png") /\
    NoDup (saved_paths (log w)) /\
    exists d, fs w !! "tiles" = Some (Dir d) /\
              size d = length (saved_paths (log w)).
Proof.
  intros Hi Hj.
  split; [apply name_inj; assumption|].
  split; [apply (bool_decide_unpack _); vm_compute; exact I|].
  split; [reflexivity|].
  intros es w Hrun. destruct (run_ok_inv _ _ Hrun) as (_ & sheet & _ & _ & _ & ->).
  cbn [fs log]. rewrite calls_saved.
  split; [clear Hj; index_cases Hi; reflexivity|].
  split; [clear Hi; index_cases Hj; reflexivity|].
  split; [intros Hne E; apply Hne, (tile_path_inj i j Hi Hj), E|].
  split; [apply tile_paths_NoDup|].
  exists (Expected.tiles sheet). split; [apply lookup_insert_eq|reflexivity].
Qed.

Lemma name_injective_witness :
  (0 <= 3 <= 11) /\ (0 <= 9 <= 11) /\
  NoDup (map name (seqZ 0 12)) /\
  exists w, run Demo.fresh = (Ok tt, w) /\ NoDup (saved_paths (log w)).
Proof.
  assert (H : run Demo.fresh = (Ok tt, snd (run Demo.fresh))) by reflexivity.
  destruct (name_injective 3 9 ltac:(lia) ltac:(lia)) as (_ & Hnd & _ & Hrun).
  destruct (Hrun Demo.fresh _ H) as (_ & _ & _ & Hsaved & _).
  split; [lia|]. split; [lia|]. split; [exact Hnd|].
  eexists. split; [exact H | exact Hsaved].
Defined.

(* ===================================================================== *)
(** ** Failures                                                            *)
(* ===================================================================== *)

Lemma remove_tiles_after_run (es : gmap string node) (sheet : image) :
  es !! "tiles" = None ->
  remove_tiles (<["tiles" := Dir (Expected.tiles sheet)]> es) = es.
Proof.
  intros Ht. unfold remove_tiles. apply map_eq. intros k.
  destruct (decide (k = "tiles")) as [->|Hk].
  - rewrite lookup_delete_eq, Ht. reflexivity.
  - rewrite lookup_delete_ne, lookup_insert_ne by congruence. reflexivity.
Qed.

(** C7.  When [tiles] exists at the start, the run raises
    [FileExistsError] at the directory creation: the only call made is
    [mkdir], no image is opened, no tile is saved and the file system is
    untouched.  Any run leaves [tiles] in place, so a second run started
    right after a first one fails in this way; when the directory is removed
    after a complete run, the next run is complete again. *)
Theorem existing_tiles_fail (es : gmap string node) :
  (is_Some (es !! "tiles") ->
   exists w,
     run es = (Raise FileExistsError, w) /\
     fs w = es /\ log w = [EvMkdir "tiles/"] /\
     opened_paths (log w) = [] /\ saved_paths (log w) = []) /\
  (let w1 := snd (run es) in
   run (fs w1) =
   (Raise FileExistsError, {| fs := fs w1; log := [EvMkdir "tiles/"] |})) /\
  (forall w1,
     run es = (Ok tt, w1) ->
     exists w2, run (remove_tiles (fs w1)) = (Ok tt, w2)).
Proof.
  split; [|split].
  - intros Hex. eexists. split; [apply run_tiles_exist, Hex|].
    cbn. repeat split.
  - cbv zeta. apply run_tiles_exist, run_leaves_tiles.
  - intros w1 Hrun. destruct (run_ok_inv _ _ Hrun) as (Ht & sheet & Hs & Hdec & Hpng & ->).
    cbn [fs]. rewrite remove_tiles_after_run by exact Ht.
    eexists. apply (run_ok es sheet Ht Hs Hdec Hpng).
Qed.

Lemma existing_tiles_fail_witness :
  exists w, run Demo.occupied = (Raise FileExistsError, w) /\
            saved_paths (log w) = [].
Proof.
  destruct (existing_tiles_fail Demo.occupied) as (H & _ & _).
  destruct H as (w & Hrun & _ & _ & _ & Hs).
  - exists (Dir ∅). reflexivity.
  - exists w. split; [exact Hrun | exact Hs].
Defined.

(** C10.  When [tiles] is absent and [sprites.png] cannot be opened, the
    directory has been created by the time the opening is attempted: the
    run raises the error of [Image.open] ([FileNotFoundError] when the file
    is missing) after exactly the two calls, leaves a new empty [tiles]
    behind, and has saved nothing; the file system differs from the one the
    run started in. *)
Theorem open_failure_leaves_directory (es : gmap string node) (e : exn) :
  es !! "tiles" = None ->
  fs_open_image ["sprites.png"] es = inl e ->
  exists w,
    run es = (Raise e, w) /\
    log w = [EvMkdir "tiles/"; EvOpen "sprites.png"] /\
    fs w = <["tiles" := Dir ∅]> es /\
    fs w !! "tiles" = Some (Dir ∅) /\
    fs w <> es /\
    saved_paths (log w) = [] /\
    (es !! "sprites.png" = None -> e = FileNotFoundError).
Proof.
  intros Ht He. eexists. split.
  - rewrite run_equation, Ht, He. reflexivity.
  - cbn [fs log]. repeat split.
    + apply lookup_insert_eq.
    + intros E. apply (f_equal (fun m => m !! "tiles")) in E.
      rewrite lookup_insert_eq, Ht in E. discriminate.
    + intros Hs. rewrite (open_image_missing _ Hs) in He. congruence.
Qed.

Lemma open_failure_leaves_directory_witness :
  exists w, run Demo.no_sheet = (Raise FileNotFoundError, w) /\
            fs w !! "tiles" = Some (Dir ∅).
Proof.
  destruct (open_failure_leaves_directory Demo.no_sheet FileNotFoundError)
    as (w & Hrun & _ & _ & Hd & _); [reflexivity | reflexivity |].
  exists w. split; [exact Hrun | exact Hd].
Defined.

(** A pixel of a crop: the pixel of the image under it, or zero where the
    box reaches beyond the right or the lower edge of the image. *)
Lemma padded_crop_pixel (im : image) (x0 y0 x1 y1 u v : Z) :
  0 <= x0 + u -> 0 <= y0 + v ->
  getpixel (padded_crop im (x0, y0, x1, y1)) u v =
  if decide (x0 + u < width im /\ y0 + v < height im)
  then getpixel im (x0 + u) (y0 + v)
  else 0.
Proof.
  intros Hx Hy. cbn [padded_crop getpixel].
  destruct (decide _) as [Hin|Hout].
  - replace ((0 <=? x0 + u) && (x0 + u <? width im) &&
             (0 <=? y0 + v) && (y0 + v <? height im)) with true; [reflexivity|].
    symmetry. rewrite !andb_true_iff, !Z.leb_le, !Z.ltb_lt. lia.
  - replace ((0 <=? x0 + u) && (x0 + u <? width im) &&
             (0 <=? y0 + v) && (y0 + v <? height im)) with false; [reflexivity|].
    symmetry. apply not_true_is_false.
    rewrite !andb_true_iff, !Z.leb_le, !Z.ltb_lt. lia.
Qed.

(** C6, as stated, fails: on a sheet of a single pixel the run raises
    nothing. *)
Lemma undersized_sheet_no_failure :
  Demo.fresh_small !! "tiles" = None /\
  Demo.fresh_small !! "sprites.png" = Some (ImageFile Demo.small) /\
  width Demo.small < 1278 /\ height Demo.small < 426 /\
  (exists w, run Demo.fresh_small = (Ok tt, w)) /\
  ~ (exists e w, run Demo.fresh_small = (Raise e, w)).
Proof.
  assert (H : run Demo.fresh_small = (Ok tt, snd (run Demo.fresh_small)))
    by reflexivity.
  repeat split; try reflexivity.
  - eexists. exact H.
  - intros (e & w & Hr). rewrite H in Hr. discriminate Hr.
Qed.

(** C6, amended.  A sheet smaller than 1278 x 426 does not make the
    extraction fail: the script compares no crop box with the size of the
    sheet, and a box that reaches beyond the sheet is no error for the crop.
    A run on such a sheet that completes (the run on the sheet of a single
    pixel does) has cropped and written all twelve tiles at the full size of
    213 x 213; a pixel of a tile is the pixel of the sheet under it where the
    sheet reaches, and zero elsewhere.  The tiles are padded, not partial:
    the last pixel of the last tile is such a zero. *)
Theorem undersized_sheet_padded
    (es : gmap string node) (w : world) (sheet : image) :
  run es = (Ok tt, w) ->
  es !! "sprites.png" = Some (ImageFile sheet) ->
  width sheet < 1278 \/ height sheet < 426 ->
  exists d,
    fs w !! "tiles" = Some (Dir d) /\
    size d = 12%nat /\
    (forall i, 0 <= i <= 11 ->
       exists t,
         pil_crop sheet (i mod 6 * 213, i / 6 * 213,
                         i mod 6 * 213 + 213, i / 6 * 213 + 213) = inr t /\
         d !! (name i +:+ ".png") = Some (ImageFile t) /\
         width t = 213 /\ height t = 213 /\
         forall u v, 0 <= u < 213 -> 0 <= v < 213 ->
           getpixel t u v =
           if decide (i mod 6 * 213 + u < width sheet /\
                      i / 6 * 213 + v < height sheet)
           then getpixel sheet (i mod 6 * 213 + u) (i / 6 * 213 + v)
           else 0) /\
    (exists t, d !! "black_pawn.png" = Some (ImageFile t) /\
               getpixel t 212 212 = 0).
Proof.
  intros Hrun Hs Hsmall.
  destruct (run_ok_inv _ _ Hrun) as (_ & sheet' & Hs' & Hdec & _ & ->).
  assert (sheet' = sheet) as -> by congruence.
  exists (Expected.tiles sheet).
  split; [apply lookup_insert_eq|].
  split; [apply tiles_size|].
  split.
  - intros i Hi. exists (padded_crop sheet (Expected.tile_box i)).
    unfold Expected.tile_box, Expected.edge.
    split.
    { unfold pil_crop.
      destruct (Z.ltb_spec (i mod 6 * 213 + 213) (i mod 6 * 213)); [lia|].
      destruct (Z.ltb_spec (i / 6 * 213 + 213) (i / 6 * 213)); [lia|].
      rewrite Hdec. reflexivity. }
    split; [apply (tiles_lookup sheet i Hi)|].
    split; [cbn [padded_crop width]; lia|].
    split; [cbn [padded_crop height]; lia|].
    intros u v Hu Hv.
    pose proof (Z.mod_pos_bound i 6 ltac:(lia)).
    pose proof (Z.div_pos i 6 ltac:(lia) ltac:(lia)).
    apply padded_crop_pixel; lia.
  - exists (padded_crop sheet (Expected.tile_box 11)).
    split; [apply (tiles_lookup sheet 11); lia|].
    change (Expected.tile_box 11) with (1065, 213, 1278, 426).
    rewrite padded_crop_pixel by lia.
    destruct (decide _) as [Hin|]; [lia | reflexivity].
Qed.

Lemma undersized_sheet_padded_witness :
  exists w d, run Demo.fresh_small = (Ok tt, w) /\
              fs w !! "tiles" = Some (Dir d) /\ size d = 12%nat.
Proof.
  assert (H : run Demo.fresh_small = (Ok tt, snd (run Demo.fresh_small)))
    by reflexivity.
  destruct (undersized_sheet_padded Demo.fresh_small _ Demo.small H)
    as (d & Hd & Hn & _); [reflexivity | left; cbn; lia |].
  exists (snd (run Demo.fresh_small)), d. repeat split; assumption.
Defined.

(* ===================================================================== *)
(** ** Further properties of the naming function                           *)
(* ===================================================================== *)

(** X1.  [name] looks at its argument through two tests only, the side of 6
    it lies on and its remainder modulo six: two integers that agree on both
    get the same name.  Over all integers the function therefore has no more
    than the twelve values it takes on 0..11. *)
Theorem name_side_and_remainder (i j : Z) :
  i mod 6 = j mod 6 ->
  (i < 6 <-> j < 6) ->
  name i = name j /\ In (name i) (map name (seqZ 0 12)).
Proof.
  intros Hmod Hside. split.
  - rewrite !name_unfold. unfold NameSpec.piece_of. rewrite Hmod.
    destruct (Z.ltb_spec i 6), (Z.ltb_spec j 6); (reflexivity || lia).
  - rewrite name_unfold. unfold NameSpec.piece_of.
    destruct (mod6_cases i) as [H|[H|[H|[H|[H|H]]]]]; rewrite H;
      destruct (i <? 6);
      apply list_elem_of_In, (bool_decide_unpack _); vm_compute; exact I.
Qed.

Lemma name_side_and_remainder_witness :
  (-7) mod 6 = 5 mod 6 /\ name (-7) = name 5 /\ name 20 = name 8.
Proof.
  split; [reflexivity|]. split.
  - apply (name_side_and_remainder (-7) 5); [reflexivity | lia].
  - apply (name_side_and_remainder 20 8); [reflexivity | lia].
Defined.

(* ===================================================================== *)
(** ** Further properties of a run                                         *)
(* ===================================================================== *)

Lemma open_image_errors (es : gmap string node) (e : exn) :
  fs_open_image ["sprites.png"] es = inl e ->
  e = FileNotFoundError \/ e = IsADirectoryError \/ e = UnidentifiedImageError.
Proof.
  unfold fs_open_image. cbn [fs_lookup].
  destruct (es !! "sprites.png") as [[im| |sub]|]; intros [= <-]; tauto.
Qed.

Lemma column_cases (x : Z) :
  0 <= x <= 5 -> x = 0 \/ x = 1 \/ x = 2 \/ x = 3 \/ x = 4 \/ x = 5.
Proof. lia. Qed.

(** X2.  The counter of the loop ties the name to the cell: in a complete
    run the crop of the cell in column x (0..5) and row y (0..1) is the file
    of [tiles] named by the y-th colour (white, black) and the x-th piece
    (king, queen, bishop, knight, rook, pawn). *)
Theorem cell_file (es : gmap string node) (w : world) (x y : Z) :
  run es = (Ok tt, w) ->
  0 <= x <= 5 ->
  0 <= y <= 1 ->
  exists sheet d t,
    es !! "sprites.png" = Some (ImageFile sheet) /\
    fs w !! "tiles" = Some (Dir d) /\
    pil_crop sheet (x * 213, y * 213, x * 213 + 213, y * 213 + 213) = inr t /\
    d !! (nth (Z.to_nat y) NameSpec.colors "" +:+ "_" +:+
          nth (Z.to_nat x) NameSpec.pieces "" +:+ ".png") = Some (ImageFile t).
Proof.
  intros Hrun Hx Hy.
  destruct (run_ok_inv _ _ Hrun) as (_ & sheet & Hs & Hdec & Hpng & ->).
  exists sheet, (Expected.tiles sheet),
    (padded_crop sheet (x * 213, y * 213, x * 213 + 213, y * 213 + 213)).
  split; [exact Hs|]. split; [apply lookup_insert_eq|].
  assert (Hy' : y = 0 \/ y = 1) by lia.
  destruct Hy' as [->| ->];
    destruct (column_cases x Hx) as [->|[->|[->|[->|[->| ->]]]]];
    (split; [unfold pil_crop; cbn [Z.ltb Z.compare Z.mul Z.add Pos.mul
                                   Pos.add Pos.compare Pos.compare_cont
                                   Pos.succ];
             rewrite Hdec; reflexivity
            | reflexivity]).
Qed.

Lemma cell_file_witness :
  exists sheet d t,
    Demo.fresh !! "sprites.png" = Some (ImageFile sheet) /\
    fs (snd (run Demo.fresh)) !! "tiles" = Some (Dir d) /\
    pil_crop sheet (639, 213, 852, 426) = inr t /\
    d !! "black_knight.png" = Some (ImageFile t).
Proof.
  assert (H : run Demo.fresh = (Ok tt, snd (run Demo.fresh))) by reflexivity.
  exact (cell_file Demo.fresh _ 3 1 H ltac:(lia) ltac:(lia)).
Defined.

(** X3.  In a complete run on a sheet of at least 1278 x 426 pixels no
    tile is padded: every pixel of the tile of index i is the pixel of the
    sheet at the offset of the tile's corner,
    (i mod 6 x 213 + u, i div 6 x 213 + v). *)
Theorem full_sheet_tiles_exact
    (es : gmap string node) (w : world) (sheet : image) :
  run es = (Ok tt, w) ->
  es !! "sprites.png" = Some (ImageFile sheet) ->
  1278 <= width sheet ->
  426 <= height sheet ->
  exists d,
    fs w !! "tiles" = Some (Dir d) /\
    forall i, 0 <= i <= 11 ->
      exists t,
        d !! (name i +:+ ".png") = Some (ImageFile t) /\
        forall u v, 0 <= u < 213 -> 0 <= v < 213 ->
          getpixel t u v =
          getpixel sheet (i mod 6 * 213 + u) (i / 6 * 213 + v).
Proof.
  intros Hrun Hs Hw Hh.
  destruct (run_ok_inv _ _ Hrun) as (_ & sheet' & Hs' & _ & _ & ->).
  assert (sheet' = sheet) as -> by congruence.
  exists (Expected.tiles sheet).
  split; [apply lookup_insert_eq|].
  intros i Hi. exists (padded_crop sheet (Expected.tile_box i)).
  split; [apply (tiles_lookup sheet i Hi)|].
  intros u v Hu Hv.
  pose proof (Z.mod_pos_bound i 6 ltac:(lia)) as Hm.
  pose proof (Z.div_pos i 6 ltac:(lia) ltac:(lia)) as Hd.
  assert (Hr : i / 6 <= 1)
    by (apply Z.lt_succ_r, Z.div_lt_upper_bound; lia).
  unfold Expected.tile_box, Expected.edge.
  rewrite padded_crop_pixel by lia.
  destruct (decide _) as [_|Hout]; [reflexivity | lia].
Qed.

Lemma full_sheet_tiles_exact_witness :
  exists w d,
    run Demo.fresh = (Ok tt, w) /\
    fs w !! "tiles" = Some (Dir d) /\
    exists t, d !! "black_pawn.png" = Some (ImageFile t) /\
              getpixel t 212 212 = getpixel Demo.sheet 1277 425.
Proof.
  assert (H : run Demo.fresh = (Ok tt, snd (run Demo.fresh))) by reflexivity.
  destruct (full_sheet_tiles_exact Demo.fresh _ Demo.sheet H)
    as (d & Hd & Hpix); [reflexivity | cbn; lia | cbn; lia |].
  exists (snd (run Demo.fresh)), d. split; [exact H|]. split; [exact Hd|].
  destruct (Hpix 11 ltac:(lia)) as (t & Ht & Hp).
  exists t. split; [exact Ht|].
  apply (Hp 212 212); lia.
Defined.

(** X4.  In a complete run nothing of the sheet is lost inside the
    1278 x 426 region: whatever the size of the sheet, each of its pixels
    (px, py) in the region is found again in the tile of the cell it lies
    in, index px div 213 + 6 x (py div 213), at the offset
    (px mod 213, py mod 213). *)
Theorem sheet_pixel_in_tile
    (es : gmap string node) (w : world) (sheet : image) (px py : Z) :
  run es = (Ok tt, w) ->
  es !! "sprites.png" = Some (ImageFile sheet) ->
  0 <= px < 1278 -> 0 <= py < 426 ->
  px < width sheet -> py < height sheet ->
  exists d t,
    fs w !! "tiles" = Some (Dir d) /\
    0 <= px / 213 + 6 * (py / 213) <= 11 /\
    d !! (name (px / 213 + 6 * (py / 213)) +:+ ".png") = Some (ImageFile t) /\
    getpixel t (px mod 213) (py mod 213) = getpixel sheet px py.
Proof.
  intros Hrun Hs Hpx Hpy Hw Hh.
  destruct (run_ok_inv _ _ Hrun) as (_ & sheet' & Hs' & _ & _ & ->).
  assert (sheet' = sheet) as -> by congruence.
  pose proof (Z.div_mod px 213 ltac:(lia)) as Ex.
  pose proof (Z.mod_pos_bound px 213 ltac:(lia)) as Bx.
  pose proof (Z.div_mod py 213 ltac:(lia)) as Ey.
  pose proof (Z.mod_pos_bound py 213 ltac:(lia)) as By.
  assert (Hc : 0 <= px / 213 <= 5) by lia.
  assert (Hr : 0 <= py / 213 <= 1) by lia.
  set (i := px / 213 + 6 * (py / 213)).
  assert (Hi : 0 <= i <= 11) by (unfold i; lia).
  assert (Hcol : i mod 6 = px / 213).
  { unfold i. symmetry. apply (Z.mod_unique_pos _ _ (py / 213)); lia. }
  assert (Hrow : i / 6 = py / 213).
  { unfold i. symmetry. apply (Z.div_unique_pos _ _ _ (px / 213)); lia. }
  exists (Expected.tiles sheet), (padded_crop sheet (Expected.tile_box i)).
  split; [apply lookup_insert_eq|].
  split; [exact Hi|].
  split; [apply (tiles_lookup sheet i Hi)|].
  unfold Expected.tile_box, Expected.edge. rewrite Hcol, Hrow.
  rewrite padded_crop_pixel by lia.
  destruct (decide _) as [_|Hout]; [|lia].
  f_equal; lia.
Qed.

Lemma sheet_pixel_in_tile_witness :
  exists w d t,
    run Demo.fresh = (Ok tt, w) /\
    fs w !! "tiles" = Some (Dir d) /\
    d !! "black_rook.png" = Some (ImageFile t) /\
    getpixel t 148 87 = getpixel Demo.sheet 1000 300.
Proof.
  assert (H : run Demo.fresh = (Ok tt, snd (run Demo.fresh))) by reflexivity.
  destruct (sheet_pixel_in_tile Demo.fresh _ Demo.sheet 1000 300 H)
    as (d & t & Hd & _ & Ht & Hp);
    [reflexivity | lia | lia | cbn; lia | cbn; lia |].
  exists (snd (run Demo.fresh)), d, t. repeat split; assumption.
Defined.

(** X5.  A sheet that opens but cannot be processed makes the run fail in
    the first iteration of the loop, with [tiles] already created.  When the
    pixel data does not load, the first crop raises [OSError] and no save is
    attempted; when the data loads but the mode cannot be written as PNG,
    the first save raises [OSError].  Either way no second tile is tried,
    [tiles] holds no image, and the rest of the working directory is as
    before. *)
Theorem unusable_sheet_fails_at_first_tile
    (es : gmap string node) (sheet : image) :
  es !! "tiles" = None ->
  es !! "sprites.png" = Some (ImageFile sheet) ->
  decodes sheet = false \/ png_mode sheet = false ->
  exists w d,
    run es = (Raise OSError, w) /\
    crop_boxes (log w) = [(0, 0, 213, 213)] /\
    saved_paths (log w) =
      (if decodes sheet then ["tiles/white_king.png"] else []) /\
    fs w !! "tiles" = Some (Dir d) /\
    (forall f im, d !! f <> Some (ImageFile im)) /\
    (forall k, k <> "tiles" -> fs w !! k = es !! k).
Proof.
  intros Ht Hs Hbad.
  apply open_image_lookup in Hs.
  assert (Hrun : exists lg,
             run es = (Raise OSError,
                       {| fs := <["tiles" := Dir ∅]> es; log := lg |}) /\
             crop_boxes lg = [(0, 0, 213, 213)] /\
             saved_paths lg =
               (if decodes sheet then ["tiles/white_king.png"] else [])).
  { rewrite run_equation, Ht, Hs.
    destruct (decodes sheet); [destruct (png_mode sheet)|].
    - destruct Hbad; discriminate.
    - eexists. split; [reflexivity|]. split; reflexivity.
    - eexists. split; [reflexivity|]. split; reflexivity. }
  destruct Hrun as (lg & Hrun & Hc & Hsv).
  exists {| fs := <["tiles" := Dir ∅]> es; log := lg |}, ∅.
  cbn [fs log].
  split; [exact Hrun|]. split; [exact Hc|]. split; [exact Hsv|].
  split; [apply lookup_insert_eq|].
  split.
  - intros f im. rewrite lookup_empty. discriminate.
  - intros k Hk. rewrite lookup_insert_ne by congruence. reflexivity.
Qed.

Lemma unusable_sheet_fails_at_first_tile_witness :
  (exists w, run Demo.fresh_cut_short = (Raise OSError, w) /\
             saved_paths (log w) = []) /\
  (exists w, run Demo.fresh_cmyk = (Raise OSError, w) /\
             saved_paths (log w) = ["tiles/white_king.png"]).
Proof.
  split.
  - destruct (unusable_sheet_fails_at_first_tile
                Demo.fresh_cut_short Demo.cut_short)
      as (w & d & Hrun & _ & Hsv & _);
      [reflexivity | reflexivity | left; reflexivity |].
    exists w. split; [exact Hrun | exact Hsv].
  - destruct (unusable_sheet_fails_at_first_tile Demo.fresh_cmyk Demo.cmyk)
      as (w & d & Hrun & _ & Hsv & _);
      [reflexivity | reflexivity | right; reflexivity |].
    exists w. split; [exact Hrun | exact Hsv].
Defined.

(** X6.  Whatever its outcome, a run is confined to [tiles]: every other
    entry of the working directory, the sheet included, is as before; an
    entry [tiles] that existed at the start is not changed either; the only
    path opened is [sprites.png]; and every path saved is one of the twelve
    file names under [tiles/]. *)
Theorem run_confined (es : gmap string node) :
  (forall k, k <> "tiles" -> fs (snd (run es)) !! k = es !! k) /\
  (forall n, es !! "tiles" = Some n -> fs (snd (run es)) = es) /\
  (forall p, In p (opened_paths (log (snd (run es)))) -> p = "sprites.png") /\
  (forall p, In p (saved_paths (log (snd (run es)))) ->
     exists f, In f Expected.file_names /\ p = "tiles/" +:+ f).
Proof.
  split; [apply run_keeps_others|].
  rewrite run_equation.
  destruct (es !! "tiles") as [n|] eqn:Ht; cbn [snd fs log].
  - split; [reflexivity|]. split; intros p Hp; cbn in Hp; contradiction.
  - split; [discriminate|].
    destruct (fs_open_image ["sprites.png"] es) as [e|sheet];
      cbn [snd fs log].
    + split; intros p Hp; cbn in Hp; [|contradiction].
      destruct Hp as [<-|[]]. reflexivity.
    + destruct (decodes sheet); [destruct (png_mode sheet)|];
        cbn [snd fs log]; split; intros p Hp.
      * change (opened_paths Expected.calls) with ["sprites.png"] in Hp.
        destruct Hp as [<-|[]]. reflexivity.
      * rewrite calls_saved, tile_paths_by_colour_and_piece in Hp.
        apply in_map_iff in Hp. destruct Hp as (f & <- & Hf).
        exists f. split; [exact Hf | reflexivity].
      * cbn in Hp. destruct Hp as [<-|[]]. reflexivity.
      * cbn in Hp. destruct Hp as [<-|[]].
        exists "white_king.png". split; [|reflexivity].
        apply list_elem_of_In, (bool_decide_unpack _); vm_compute; exact I.
      * cbn in Hp. destruct Hp as [<-|[]]. reflexivity.
      * cbn in Hp. contradiction.
Qed.

Lemma run_confined_witness :
  fs (snd (run Demo.fresh)) !! "sprites.png" = Some (ImageFile Demo.sheet) /\
  fs (snd (run Demo.occupied)) = Demo.occupied.
Proof.
  destruct (run_confined Demo.fresh) as (Hk & _).
  destruct (run_confined Demo.occupied) as (_ & Hn & _).
  split.
  - rewrite Hk by discriminate. reflexivity.
  - apply (Hn (Dir ∅)). reflexivity.
Defined.


